(** * Sutherland's equation viscosity calculator

    A shallow embedding of [Sutherlandsequation.py]: the two temperature
    converters, Sutherland's formula, and the per-click orchestration with
    the data of the plotted curve.

    Python's [float] is idealised as a real number: rounding, overflow and
    the special values are not part of the arithmetic below.  What Python
    does instead of returning a real is kept: an exception is [Raise], and a
    power with a negative base and a fractional exponent is a [PyComplex]
    value.  What binary64 adds to this (the last digit of a result, the
    OverflowError of a power too large, a power too small becoming 0.0) is
    outside the real model; where a property turns on it, the formula is
    evaluated on machine floats, [f64_sutherland_viscosity]. *)

From Stdlib Require Import Floats.
From Stdlib Require Import Reals Lra Lia Psatz String Ascii Bool List.
Import ListNotations.

Set Warnings "-inexact-float".

Open Scope string_scope.
Open Scope R_scope.

(** ** Outcomes of Python expressions *)

(** The exceptions the computational core can raise. *)
Inductive exn : Type :=
| ValueError (msg : string)
| ZeroDivisionError.

Inductive result (A : Type) : Type :=
| Ok (a : A)
| Raise (e : exn).

Arguments Ok {A} a.
Arguments Raise {A} e.

Definition bind {A B : Type} (m : result A) (k : A -> result B) : result B :=
  match m with
  | Ok a => k a
  | Raise e => Raise e
  end.

Notation "x <- m ;; k" := (bind m (fun x => k))
  (at level 61, m at next level, right associativity).

(** A numeric Python value: a float, or a complex number (whose components
    are not tracked: nothing in the program reads them). *)
Inductive pyvalue : Type :=
| PyFloat (r : R)
| PyComplex.

(** ** Arithmetic of Python floats *)

(** [x / y] on floats: a zero divisor raises. *)
Definition float_div (x y : R) : result R :=
  if Req_dec_T y 0 then Raise ZeroDivisionError else Ok (x / y).

(** [y] holds an integral value. *)
Definition is_integer (y : R) : Prop := y = IZR (Int_part y).

Definition is_integer_dec (y : R) : {is_integer y} + {~ is_integer y} :=
  Req_dec_T y (IZR (Int_part y)).

(** [x ** y] on floats.  A positive base gives [exp (y * ln x)]; base zero
    gives 0, 1 or an exception by the sign of the exponent; a negative base
    gives a float for an integral exponent and a complex number otherwise. *)
Definition float_pow (x y : R) : result pyvalue :=
  match total_order_T x 0 with
  | inright _ => Ok (PyFloat (Rpower x y))
  | inleft (right _) =>
      match total_order_T y 0 with
      | inright _ => Ok (PyFloat 0)
      | inleft (right _) => Ok (PyFloat 1)
      | inleft (left _) => Raise ZeroDivisionError
      end
  | inleft (left _) =>
      if is_integer_dec y then Ok (PyFloat (powerRZ x (Int_part y)))
      else Ok PyComplex
  end.

(** [v * r] and [v / r] for a float or complex [v] and a float [r]. *)
Definition py_mul (v : pyvalue) (r : R) : pyvalue :=
  match v with
  | PyFloat a => PyFloat (a * r)
  | PyComplex => PyComplex
  end.

Definition py_rmul (r : R) (v : pyvalue) : pyvalue :=
  match v with
  | PyFloat a => PyFloat (r * a)
  | PyComplex => PyComplex
  end.

Definition py_div (v : pyvalue) (r : R) : result pyvalue :=
  if Req_dec_T r 0 then Raise ZeroDivisionError
  else Ok (match v with
           | PyFloat a => PyFloat (a / r)
           | PyComplex => PyComplex
           end).

(** ** 1. Sutherland constants *)

(** SI constants (Kelvin, kg/m.s) *)
Definition T_REF_SI : R := 323.0.
Definition S_SI : R := 110.0.
Definition V_REF_SI : R := 1.716e-5.

(** USC constants (Rankine, slug/ft.s) *)
Definition T_REF_USC : R := 518.67.
Definition S_USC : R := 198.72.
Definition V_REF_USC : R := 3.737e-7.

(** ** 2. Temperature conversion functions *)

Definition unsupported (unit : string) : exn :=
  ValueError ("Unsupported unit: " ++ unit).

Definition to_kelvin (value : R) (unit : string) : result R :=
  if String.eqb unit "C" then Ok (value + 273.15)
  else if String.eqb unit "F" then Ok ((value - 32) * 5 / 9 + 273.15)
  else if String.eqb unit "K" then Ok value
  else if String.eqb unit "R" then Ok (value * 5 / 9)
  else Raise (unsupported unit).

Definition to_rankine (value : R) (unit : string) : result R :=
  if String.eqb unit "C" then Ok ((value * 9 / 5) + 491.67)
  else if String.eqb unit "F" then Ok (value + 459.67)
  else if String.eqb unit "K" then Ok (value * 9 / 5)
  else if String.eqb unit "R" then Ok value
  else Raise (unsupported unit).

(** ** 3. Viscosity calculation using Sutherland's formula *)

(** [v_ref * (temp / t_ref) ** 1.5 * (t_ref + s) / (temp + s)], evaluated
    left to right as Python does. *)
Definition sutherland_viscosity (temp t_ref s v_ref : R) : result pyvalue :=
  q <- float_div temp t_ref ;;
  p <- float_pow q 1.5 ;;
  py_div (py_mul (py_rmul v_ref p) (t_ref + s)) (temp + s).

(** ** 6. Data of the plot *)

(** A numpy [float64] scalar: [Some r] for a finite value, [None] for
    [inf] or [nan]. *)
Definition np_float : Type := option R.

Definition np_bind {A B : Type} (m : option A) (k : A -> option B) : option B :=
  match m with
  | Some a => k a
  | None => None
  end.

(** [float64] arithmetic does not raise: a zero divisor gives [inf] or [nan]
    (with a warning), a negative base under a fractional exponent gives
    [nan]. *)
Definition np_div (x y : R) : np_float :=
  if Req_dec_T y 0 then None else Some (x / y).

Definition np_pow (x y : R) : np_float :=
  match total_order_T x 0 with
  | inright _ => Some (Rpower x y)
  | inleft (right _) =>
      match total_order_T y 0 with
      | inright _ => Some 0
      | inleft (right _) => Some 1
      | inleft (left _) => None
      end
  | inleft (left _) =>
      if is_integer_dec y then Some (powerRZ x (Int_part y)) else None
  end.

(** [sutherland_viscosity] applied to a [float64] temperature, as the list
    comprehension for [mu] does.  The divisors and factors of the formula
    are finite and its exponent is positive, so an [inf] or [nan]
    intermediate stays one to the end: [np_bind] passes [None] through. *)
Definition np_sutherland_viscosity (temp t_ref s v_ref : R) : np_float :=
  np_bind (np_div temp t_ref) (fun q =>
  np_bind (np_pow q 1.5) (fun p =>
  np_div (v_ref * p * (t_ref + s)) (temp + s))).

(** [y[-1] = v] on a non-empty list. *)
Definition set_last (y : list R) (v : R) : list R :=
  match y with
  | [] => []
  | _ :: _ => removelast y ++ [v]
  end.

(** [numpy.linspace(start, stop, num)] with its default [endpoint=True].
    The function belongs to the numpy library, not to this program; the
    definition follows numpy's implementation: [arange(0, num)] scaled by
    the step, shifted by [start], with the last entry overwritten by
    [stop]. *)
Definition linspace (start stop : R) (num : nat) : list R :=
  let div := (num - 1)%nat in
  let delta := stop - start in
  let y := map INR (seq 0 num) in
  let y :=
    if (0 <? div)%nat then
      let step := delta / INR div in
      if Req_dec_T step 0 then map (fun i => i / INR div * delta) y
      else map (fun i => i * step) y
    else map (fun i => i * delta) y in
  let y := map (fun v => v + start) y in
  if (1 <? num)%nat then set_last y stop else y.

(** The distance between neighbouring samples of [linspace]. *)
Definition linspace_step (start stop : R) (num : nat) : R :=
  (stop - start) / INR (num - 1).

(** ** 5. Conversions and calculations on "Calculate" *)

(** What one click computes: the values shown and the two series handed to
    the plot. *)
Record calculation : Type := {
  calc_T : R;
  calc_base_temp : R;
  calc_viscosity : pyvalue;
  calc_unit_label : string;
  calc_ref : R * R * R;
  calc_temps : list R;
  calc_mu : list np_float
}.

(** Number of samples of the curve. *)
Definition curve_count : nat := 100.

Definition curve_temps (base_temp T : R) : list R :=
  linspace base_temp T curve_count.

Definition curve_mu (ref : R * R * R) (temps : list R) : list np_float :=
  let '(t_ref, s, v_ref) := ref in
  map (fun t => np_sutherland_viscosity t t_ref s v_ref) temps.

(** The sampled curve as the plot pairs it: [ax.plot(temps, mu)]. *)
Definition curve_points (base_temp T : R) (ref : R * R * R)
  : list (R * np_float) :=
  let temps := curve_temps base_temp T in
  combine temps (curve_mu ref temps).

Definition calculate (unit_system temp_unit : string) (temp_input : R)
  : result calculation :=
  if String.eqb unit_system "SI" then
    T <- to_kelvin temp_input temp_unit ;;
    base_temp <- to_kelvin 15.0 "C" ;;
    viscosity <- sutherland_viscosity T T_REF_SI S_SI V_REF_SI ;;
    let ref := (T_REF_SI, S_SI, V_REF_SI) in
    let temps := curve_temps base_temp T in
    Ok {| calc_T := T; calc_base_temp := base_temp;
          calc_viscosity := viscosity; calc_unit_label := "K";
          calc_ref := ref; calc_temps := temps;
          calc_mu := curve_mu ref temps |}
  else
    T <- to_rankine temp_input temp_unit ;;
    base_temp <- to_rankine 15.0 "C" ;;
    viscosity <- sutherland_viscosity T T_REF_USC S_USC V_REF_USC ;;
    let ref := (T_REF_USC, S_USC, V_REF_USC) in
    let temps := curve_temps base_temp T in
    Ok {| calc_T := T; calc_base_temp := base_temp;
          calc_viscosity := viscosity; calc_unit_label := "R";
          calc_ref := ref; calc_temps := temps;
          calc_mu := curve_mu ref temps |}.

(** ** Sutherland's formula as written in mathematics *)

(** [x ^ 1.5] for a non-negative real: [x * sqrt x]. *)
Definition pow_1_5 (x : R) : R := x * sqrt x.

(** viscosity = refViscosity * (temp / refTemp)^1.5
                * (refTemp + sutherlandConst) / (temp + sutherlandConst) *)
Definition sutherland_formula (temp t_ref s v_ref : R) : R :=
  v_ref * pow_1_5 (temp / t_ref) * (t_ref + s) / (temp + s).

(** The four unit symbols. *)
Definition unit_symbols : list string := ["C"; "F"; "K"; "R"].

(** ** 4. Sidebar: the units offered *)

(** The options of the unit select box. *)
Definition temp_unit_options : list string := ["C"; "F"; "K"; "R"].

(** [index=0 if unit_system=='SI' else 3]: the option selected at first. *)
Definition default_unit_index (unit_system : string) : nat :=
  if String.eqb unit_system "SI" then 0%nat else 3%nat.

(** The float a numeric Python value stands for on the [float64] side:
    a complex number has none. *)
Definition finite_part (v : pyvalue) : np_float :=
  match v with
  | PyFloat r => Some r
  | PyComplex => None
  end.

(** ** The branch of the calculation a unit system selects *)

(** The converter used: [to_kelvin] under "SI", [to_rankine] otherwise. *)
Definition convert (unit_system : string) : R -> string -> result R :=
  if String.eqb unit_system "SI" then to_kelvin else to_rankine.

(** The constants used, as the tuple [ref]. *)
Definition constants (unit_system : string) : R * R * R :=
  if String.eqb unit_system "SI" then (T_REF_SI, S_SI, V_REF_SI)
  else (T_REF_USC, S_USC, V_REF_USC).

(** [sutherland_viscosity(T, ref[0], ref[1], ref[2])]. *)
Definition viscosity_with (ref : R * R * R) (T : R) : result pyvalue :=
  let '(t_ref, s, v_ref) := ref in sutherland_viscosity T t_ref s v_ref.

(** ** The formula on binary64 floats *)

(** What the formula gives on machine floats: a float, the exception of a
    zero divisor, or a value that depends on the platform's [pow]. *)
Inductive f64_outcome : Type :=
| F64 (x : float)
| F64_ZeroDivisionError
| F64_pow_unmodelled.

(** [x ** 1.5] in binary64, where the result leaves no room to the
    implementation of [pow]: base 1 gives 1, base 0 gives 0, and a positive
    base below 2^-800 has a power below 2^-1200, far under the least
    positive float, so the result is 0.0.  Every other base is left
    unmodelled. *)
Definition f64_pow_1_5 (x : float) : option float :=
  if PrimFloat.eqb x 1%float then Some 1%float
  else if PrimFloat.eqb x 0%float then Some 0%float
  else if (PrimFloat.ltb 0%float x && PrimFloat.ltb x 0x1p-800%float)%bool
       then Some 0%float
  else None.

(** [v_ref * (temp / t_ref) ** 1.5 * (t_ref + s) / (temp + s)] with the
    float operations of binary64, left to right; a zero divisor raises. *)
Definition f64_sutherland_viscosity (temp t_ref s v_ref : float)
  : f64_outcome :=
  if PrimFloat.eqb t_ref 0%float then F64_ZeroDivisionError
  else
    match f64_pow_1_5 (PrimFloat.div temp t_ref) with
    | None => F64_pow_unmodelled
    | Some p =>
        let numerator :=
          PrimFloat.mul (PrimFloat.mul v_ref p) (PrimFloat.add t_ref s) in
        let divisor := PrimFloat.add temp s in
        if PrimFloat.eqb divisor 0%float then F64_ZeroDivisionError
        else F64 (PrimFloat.div numerator divisor)
    end.

(** * Properties *)

(** ** Float arithmetic *)

Lemma float_div_ok (x y : R) : y <> 0 -> float_div x y = Ok (x / y).
Proof.
  intros Hy. unfold float_div.
  destruct (Req_dec_T y 0) as [E | _]; [contradiction | reflexivity].
Qed.

Lemma float_div_zero (x : R) : float_div x 0 = Raise ZeroDivisionError.
Proof.
  unfold float_div.
  destruct (Req_dec_T 0 0) as [_ | N]; [reflexivity | now elim N].
Qed.

Lemma py_div_ok (v : pyvalue) (r : R) :
  r <> 0 ->
  py_div v r = Ok (match v with
                   | PyFloat a => PyFloat (a / r)
                   | PyComplex => PyComplex
                   end).
Proof.
  intros Hr. unfold py_div.
  destruct (Req_dec_T r 0) as [E | _]; [contradiction | reflexivity].
Qed.

(** On a positive base the real power with exponent 1.5 is [x * sqrt x]. *)
Lemma Rpower_1_5 (x : R) : 0 < x -> Rpower x 1.5 = pow_1_5 x.
Proof.
  intros Hx. unfold pow_1_5.
  replace 1.5 with (1 + / 2) by lra.
  rewrite Rpower_plus, Rpower_1, Rpower_sqrt by assumption.
  reflexivity.
Qed.

Lemma float_pow_pos (x y : R) :
  0 < x -> float_pow x y = Ok (PyFloat (Rpower x y)).
Proof.
  intros Hx. unfold float_pow.
  destruct (total_order_T x 0) as [[L | E] | G]; try lra. reflexivity.
Qed.

Lemma float_pow_zero_1_5 : float_pow 0 1.5 = Ok (PyFloat 0).
Proof.
  unfold float_pow.
  destruct (total_order_T 0 0) as [[L | _] | G]; try lra.
  destruct (total_order_T 1.5 0) as [[L | E] | _]; try lra. reflexivity.
Qed.

(** [x ** 1.5] on a non-negative float is the mathematical power. *)
Lemma float_pow_1_5_nonneg (x : R) :
  0 <= x -> float_pow x 1.5 = Ok (PyFloat (pow_1_5 x)).
Proof.
  intros [Hx | <-].
  - rewrite float_pow_pos, Rpower_1_5 by assumption. reflexivity.
  - rewrite float_pow_zero_1_5. unfold pow_1_5. now rewrite Rmult_0_l.
Qed.

Lemma not_integer_1_5 : ~ is_integer 1.5.
Proof.
  unfold is_integer. intros H.
  assert (B := base_Int_part 1.5).
  destruct B as [B1 B2].
  assert (Hlo : (0 < Int_part 1.5)%Z) by (apply lt_IZR; lra).
  assert (Hhi : (Int_part 1.5 < 2)%Z) by (apply lt_IZR; lra).
  assert (E : Int_part 1.5 = 1%Z) by lia.
  rewrite E in H. lra.
Qed.

(** A negative base under the exponent 1.5 leaves the reals. *)
Lemma float_pow_1_5_neg (x : R) : x < 0 -> float_pow x 1.5 = Ok PyComplex.
Proof.
  intros Hx. unfold float_pow.
  destruct (total_order_T x 0) as [[_ | E] | G]; try lra.
  destruct (is_integer_dec 1.5) as [I | _]; [| reflexivity].
  now elim not_integer_1_5.
Qed.

(** ** Temperature converters *)

Lemma unit_symbols_cases (unit : string) :
  In unit unit_symbols <->
  (unit = "C" \/ unit = "F" \/ unit = "K" \/ unit = "R").
Proof.
  unfold unit_symbols. simpl. split.
  - intros [H | [H | [H | [H | []]]]]; subst; auto.
  - intros [H | [H | [H | H]]]; subst; auto.
Qed.

Lemma eqb_false_of_not_in (unit : string) :
  ~ In unit unit_symbols ->
  String.eqb unit "C" = false /\ String.eqb unit "F" = false /\
  String.eqb unit "K" = false /\ String.eqb unit "R" = false.
Proof.
  intros H. rewrite unit_symbols_cases in H.
  repeat split; apply String.eqb_neq; intros E; apply H; auto.
Qed.

(** Outside the four symbols both converters take their [else] branch. *)
Lemma converters_reject (value : R) (unit : string) :
  ~ In unit unit_symbols ->
  to_kelvin value unit = Raise (unsupported unit) /\
  to_rankine value unit = Raise (unsupported unit).
Proof.
  intros H. destruct (eqb_false_of_not_in unit H) as (HC & HF & HK & HR).
  unfold to_kelvin, to_rankine. rewrite HC, HF, HK, HR. split; reflexivity.
Qed.

(** On the four symbols both converters return a float. *)
Lemma converters_accept (value : R) (unit : string) :
  In unit unit_symbols ->
  (exists k, to_kelvin value unit = Ok k) /\
  (exists r, to_rankine value unit = Ok r).
Proof.
  intros H. apply unit_symbols_cases in H.
  destruct H as [-> | [-> | [-> | ->]]]; split; eexists; reflexivity.
Qed.

(** C2: [to_kelvin] maps 'C' to value + 273.15, 'F' to
    (value - 32) * 5/9 + 273.15, 'K' to the value unchanged and 'R' to
    value * 5/9, for every real value. *)
Theorem to_kelvin_table (value : R) :
  to_kelvin value "C" = Ok (value + 273.15) /\
  to_kelvin value "F" = Ok ((value - 32) * (5 / 9) + 273.15) /\
  to_kelvin value "K" = Ok value /\
  to_kelvin value "R" = Ok (value * (5 / 9)).
Proof.
  unfold to_kelvin; simpl. repeat split; f_equal; lra.
Qed.

(** C3: [to_rankine] maps 'C' to value * 9/5 + 491.67, 'F' to
    value + 459.67, 'K' to value * 9/5 and 'R' to the value unchanged, for
    every real value. *)
Theorem to_rankine_table (value : R) :
  to_rankine value "C" = Ok (value * (9 / 5) + 491.67) /\
  to_rankine value "F" = Ok (value + 459.67) /\
  to_rankine value "K" = Ok (value * (9 / 5)) /\
  to_rankine value "R" = Ok value.
Proof.
  unfold to_rankine; simpl. repeat split; f_equal; lra.
Qed.

(** C4: each converter raises the unsupported-unit error exactly when the
    unit symbol is outside {C, F, K, R}; then it returns no value, and the
    error reaches the caller: the whole calculation ends with that same
    error under either unit system. *)
Theorem converters_raise_iff_unknown_unit (value : R) (unit : string) :
  (to_kelvin value unit = Raise (unsupported unit) <->
   ~ In unit unit_symbols) /\
  (to_rankine value unit = Raise (unsupported unit) <->
   ~ In unit unit_symbols) /\
  (~ In unit unit_symbols ->
   (forall r, to_kelvin value unit <> Ok r) /\
   (forall r, to_rankine value unit <> Ok r) /\
   (forall unit_system,
      calculate unit_system unit value = Raise (unsupported unit))).
Proof.
  split; [| split].
  - split.
    + intros E I. destruct (converters_accept value unit I) as [[k Hk] _].
      congruence.
    + intros N. apply (converters_reject value unit N).
  - split.
    + intros E I. destruct (converters_accept value unit I) as [_ [r Hr]].
      congruence.
    + intros N. apply (converters_reject value unit N).
  - intros N. destruct (converters_reject value unit N) as [HK HR].
    repeat split.
    + intros r. rewrite HK. discriminate.
    + intros r. rewrite HR. discriminate.
    + intros unit_system. unfold calculate.
      destruct (String.eqb unit_system "SI"); [rewrite HK | rewrite HR];
        reflexivity.
Qed.

Lemma converters_raise_iff_unknown_unit_witness :
  to_kelvin 0 "X" = Raise (unsupported "X") /\
  to_rankine 0 "X" = Raise (unsupported "X") /\
  calculate "SI" "X" 0 = Raise (unsupported "X").
Proof.
  assert (N : ~ In "X" unit_symbols).
  { simpl. intros [H | [H | [H | [H | []]]]]; discriminate H. }
  destruct (converters_raise_iff_unknown_unit 0 "X") as (HK & HR & HC).
  split; [apply HK, N | split; [apply HR, N |]].
  destruct (HC N) as (_ & _ & H). apply H.
Defined.

(** C10: Kelvin to Rankine and back, and Rankine to Kelvin and back, give
    the starting value again, for every real x. *)
Theorem kelvin_rankine_round_trip (x : R) :
  (r <- to_rankine x "K" ;; to_kelvin r "R") = Ok x /\
  (k <- to_kelvin x "R" ;; to_rankine k "K") = Ok x.
Proof.
  unfold to_rankine, to_kelvin; simpl. split; f_equal; lra.
Qed.

(** ** Sutherland's formula *)

(** The function raises when the reference temperature is zero. *)
Lemma sutherland_viscosity_zero_ref (temp s v_ref : R) :
  sutherland_viscosity temp 0 s v_ref = Raise ZeroDivisionError.
Proof.
  unfold sutherland_viscosity. rewrite float_div_zero. reflexivity.
Qed.

(** Where the quotient of the temperatures is negative, the function returns
    a complex number. *)
Lemma sutherland_viscosity_complex (temp t_ref s v_ref : R) :
  t_ref <> 0 -> temp / t_ref < 0 -> temp + s <> 0 ->
  sutherland_viscosity temp t_ref s v_ref = Ok PyComplex.
Proof.
  intros Hr Hq Hs. unfold sutherland_viscosity.
  rewrite float_div_ok by assumption. simpl.
  rewrite float_pow_1_5_neg by assumption. simpl.
  rewrite py_div_ok by assumption. reflexivity.
Qed.

(** On a non-negative quotient the function returns the real number of
    the formula. *)
Lemma sutherland_viscosity_real (temp t_ref s v_ref : R) :
  t_ref <> 0 -> 0 <= temp / t_ref -> temp + s <> 0 ->
  sutherland_viscosity temp t_ref s v_ref =
  Ok (PyFloat (v_ref * pow_1_5 (temp / t_ref) * (t_ref + s) / (temp + s))).
Proof.
  intros Hr Hq Hs. unfold sutherland_viscosity.
  rewrite float_div_ok by assumption. simpl.
  rewrite float_pow_1_5_nonneg by assumption. simpl.
  rewrite py_div_ok by assumption. reflexivity.
Qed.

(** C1: where the expression is defined (the quotient temp / t_ref
    evaluates, to a non-negative float, and temp + s is non-zero), the
    viscosity function returns v_ref * (temp / t_ref)^1.5 * (t_ref + s) /
    (temp + s). *)
Theorem sutherland_viscosity_formula (temp t_ref s v_ref q : R) :
  float_div temp t_ref = Ok q -> 0 <= q -> temp + s <> 0 ->
  sutherland_viscosity temp t_ref s v_ref =
  Ok (PyFloat (sutherland_formula temp t_ref s v_ref)).
Proof.
  intros Hdiv Hq Hs. unfold float_div in Hdiv.
  destruct (Req_dec_T t_ref 0) as [Z | NZ]; [discriminate Hdiv |].
  injection Hdiv as <-. unfold sutherland_formula.
  now apply sutherland_viscosity_real.
Qed.

Lemma sutherland_viscosity_formula_witness :
  sutherland_viscosity 4 1 1 5 = Ok (PyFloat (sutherland_formula 4 1 1 5)).
Proof.
  apply (sutherland_viscosity_formula 4 1 1 5 (4 / 1)).
  - apply float_div_ok. lra.
  - lra.
  - lra.
Defined.

(** The claim of C6 as written fails twice.  With [t_ref + s <> 0] its
    only condition it fails on a zero reference temperature: 0.0 / 0.0
    raises.  And on machine floats the result at the reference temperature
    need not be [v_ref] to the last digit: at t_ref = 1.0, s = 2.0,
    v_ref = 0.1 the code computes 0.1 * 1.0 * 3.0 / 3.0, which is
    0.10000000000000002. *)
Lemma reference_identity_fails_on_zero_ref :
  (0 + 1 <> 0 /\
   sutherland_viscosity 0 0 1 1 = Raise ZeroDivisionError /\
   ~ (forall t_ref s v_ref : R,
        t_ref + s <> 0 ->
        sutherland_viscosity t_ref t_ref s v_ref = Ok (PyFloat v_ref))) /\
  (f64_sutherland_viscosity 1 1 2 0.1 = F64 0.10000000000000002 /\
   PrimFloat.eqb 0.10000000000000002 0.1 = false).
Proof.
  split; [split; [lra | split] | split].
  - apply sutherland_viscosity_zero_ref.
  - intros H. specialize (H 0 1 1). rewrite sutherland_viscosity_zero_ref in H.
    assert (E : 0 + 1 <> 0) by lra. specialize (H E). discriminate H.
  - vm_compute. reflexivity.
  - vm_compute. reflexivity.
Qed.

Lemma pow_1_5_one : pow_1_5 1 = 1.
Proof. unfold pow_1_5. rewrite sqrt_1. lra. Qed.

Lemma pow_1_5_zero : pow_1_5 0 = 0.
Proof. unfold pow_1_5. lra. Qed.

Lemma sutherland_viscosity_at_ref (t_ref s v_ref : R) :
  t_ref <> 0 -> t_ref + s <> 0 ->
  sutherland_viscosity t_ref t_ref s v_ref = Ok (PyFloat v_ref).
Proof.
  intros Hr Hs.
  assert (Hq : t_ref / t_ref = 1) by (field; assumption).
  rewrite sutherland_viscosity_real; try assumption; try lra.
  rewrite Hq, pow_1_5_one.
  do 2 f_equal. field. assumption.
Qed.

(** C6, amended: for every constants triple with a non-zero reference
    temperature and t_ref + s non-zero, the viscosity function at
    temp = t_ref returns v_ref itself in exact real arithmetic (on machine
    floats, v_ref up to the rounding of the last product and quotient); and
    for USC with unit 'R' and value 518.67 the converted temperature is
    518.67 R and the viscosity is 3.737e-7, on machine floats too. *)
Theorem viscosity_at_reference_temperature :
  (forall t_ref s v_ref : R,
     t_ref <> 0 -> t_ref + s <> 0 ->
     sutherland_viscosity t_ref t_ref s v_ref = Ok (PyFloat v_ref)) /\
  (exists c : calculation,
     calculate "USC" "R" 518.67 = Ok c /\
     calc_T c = 518.67 /\
     calc_unit_label c = "R" /\
     calc_viscosity c = PyFloat 3.737e-7) /\
  f64_sutherland_viscosity 518.67 518.67 198.72 3.737e-7 = F64 3.737e-7.
Proof.
  split; [exact sutherland_viscosity_at_ref |].
  split; [| vm_compute; reflexivity].
  unfold calculate. simpl.
  assert (E : sutherland_viscosity 518.67 T_REF_USC S_USC V_REF_USC
              = Ok (PyFloat V_REF_USC)).
  { apply sutherland_viscosity_at_ref; unfold T_REF_USC, S_USC; lra. }
  rewrite E. simpl. eexists. split; [reflexivity |].
  simpl. repeat split.
Qed.

Lemma viscosity_at_reference_temperature_witness :
  sutherland_viscosity 2 2 3 7 = Ok (PyFloat 7).
Proof.
  apply (proj1 viscosity_at_reference_temperature 2 3 7); lra.
Defined.

(** The claim of C9 as written, with [s <> 0] its only condition, fails on a
    zero reference temperature: 0.0 / 0.0 raises. *)
Lemma zero_temperature_fails_on_zero_ref :
  2 <> 0 /\
  sutherland_viscosity 0 0 2 3 = Raise ZeroDivisionError /\
  ~ (forall t_ref s v_ref : R,
       s <> 0 -> sutherland_viscosity 0 t_ref s v_ref = Ok (PyFloat 0)).
Proof.
  split; [lra | split].
  - apply sutherland_viscosity_zero_ref.
  - intros H. specialize (H 0 2 3). rewrite sutherland_viscosity_zero_ref in H.
    assert (E : 2 <> 0) by lra. specialize (H E). discriminate H.
Qed.

(** C9, amended: for every constants triple with a non-zero reference
    temperature and a non-zero Sutherland constant, the viscosity function
    at temp = 0 returns 0. *)
Theorem viscosity_at_zero_temperature (t_ref s v_ref : R) :
  t_ref <> 0 -> s <> 0 ->
  sutherland_viscosity 0 t_ref s v_ref = Ok (PyFloat 0).
Proof.
  intros Hr Hs.
  assert (Hq : 0 / t_ref = 0) by (field; assumption).
  rewrite sutherland_viscosity_real; try assumption; try lra.
  rewrite Hq, pow_1_5_zero.
  do 2 f_equal. field. lra.
Qed.

Lemma viscosity_at_zero_temperature_witness :
  sutherland_viscosity 0 323 110 2 = Ok (PyFloat 0).
Proof.
  apply (viscosity_at_zero_temperature 323 110 2); lra.
Defined.

(** ** Monotonicity *)

(** [t ^ 1.5 / (t + s)], with the temperature scaled by a positive
    reference, grows with [t] on the positive reals. *)
Lemma pow_ratio_increasing (t_ref s t1 t2 : R) :
  0 < t_ref -> 0 < s -> 0 < t1 -> t1 < t2 ->
  pow_1_5 (t1 / t_ref) / (t1 + s) < pow_1_5 (t2 / t_ref) / (t2 + s).
Proof.
  intros Hr Hs H1 H12. unfold pow_1_5.
  assert (Hi : 0 < / t_ref) by now apply Rinv_0_lt_compat.
  assert (Hx1 : 0 < t1 / t_ref) by (unfold Rdiv; nra).
  assert (Hx12 : t1 / t_ref < t2 / t_ref) by (unfold Rdiv; nra).
  assert (E1 : t1 = t_ref * (t1 / t_ref)) by (field; lra).
  assert (E2 : t2 = t_ref * (t2 / t_ref)) by (field; lra).
  set (x1 := t1 / t_ref) in *. set (x2 := t2 / t_ref) in *.
  assert (Hr1 : 0 < sqrt x1) by (apply sqrt_lt_R0; lra).
  assert (Hr12 : sqrt x1 < sqrt x2) by (apply sqrt_lt_1; lra).
  set (r1 := sqrt x1) in *. set (r2 := sqrt x2) in *.
  assert (Hx2 : 0 < x2) by lra.
  assert (Hp1 : 0 < x1 * r1) by now apply Rmult_lt_0_compat.
  assert (Hp12 : x1 * r1 < x2 * r2) by (apply Rmult_gt_0_lt_compat; lra).
  assert (Hq : x1 * x2 * r1 < x1 * x2 * r2).
  { apply Rmult_lt_compat_l; [now apply Rmult_lt_0_compat | assumption]. }
  assert (Hcross : x1 * r1 * (t2 + s) < x2 * r2 * (t1 + s)).
  { rewrite E1, E2 at 1. clear E1 E2.
    assert (Hs1 : x1 * r1 * s < x2 * r2 * s)
      by (apply Rmult_lt_compat_r; assumption).
    assert (Ht : t_ref * (x1 * x2 * r1) < t_ref * (x1 * x2 * r2))
      by (apply Rmult_lt_compat_l; assumption).
    lra. }
  apply Rmult_lt_reg_r with ((t1 + s) * (t2 + s)).
  - apply Rmult_lt_0_compat; lra.
  - replace (x1 * r1 / (t1 + s) * ((t1 + s) * (t2 + s)))
      with (x1 * r1 * (t2 + s)) by (field; lra).
    replace (x2 * r2 / (t2 + s) * ((t1 + s) * (t2 + s)))
      with (x2 * r2 * (t1 + s)) by (field; lra).
    exact Hcross.
Qed.

(** On machine floats two temperatures so small that their powers vanish
    get the same viscosity, 0.0. *)
Lemma f64_viscosity_underflows :
  PrimFloat.ltb 0 1e-300 = true /\
  PrimFloat.ltb 1e-300 2e-300 = true /\
  f64_sutherland_viscosity 1e-300 1 1 1 = F64 0 /\
  f64_sutherland_viscosity 2e-300 1 1 1 = F64 0.
Proof. repeat split; vm_compute; reflexivity. Qed.

(** The claim of C7 as written fails twice.  With no condition on the
    reference temperature it fails on a negative one: both viscosities are
    complex numbers, which have no order.  And on machine floats the
    increase is not strict: the temperatures 1e-300 < 2e-300 (with
    t_ref = s = v_ref = 1.0) both give the viscosity 0.0. *)
Lemma monotonicity_fails_on_negative_ref :
  (sutherland_viscosity 1 (-1) 2 1 = Ok PyComplex /\
   sutherland_viscosity 2 (-1) 2 1 = Ok PyComplex /\
   ~ (forall t_ref s v_ref t1 t2 : R,
        0 < s -> 0 < v_ref -> 0 < t1 -> t1 < t2 ->
        exists v1 v2 : R,
          sutherland_viscosity t1 t_ref s v_ref = Ok (PyFloat v1) /\
          sutherland_viscosity t2 t_ref s v_ref = Ok (PyFloat v2) /\
          v1 < v2)) /\
  (PrimFloat.ltb 1e-300 2e-300 = true /\
   f64_sutherland_viscosity 1e-300 1 1 1 = F64 0 /\
   f64_sutherland_viscosity 2e-300 1 1 1 = F64 0).
Proof.
  split; [| destruct f64_viscosity_underflows as (_ & H1 & H2 & H3);
            repeat split; assumption].
  assert (C1 : sutherland_viscosity 1 (-1) 2 1 = Ok PyComplex)
    by (apply sutherland_viscosity_complex; lra).
  assert (C2 : sutherland_viscosity 2 (-1) 2 1 = Ok PyComplex)
    by (apply sutherland_viscosity_complex; lra).
  split; [exact C1 | split; [exact C2 |]].
  intros H.
  destruct (H (-1) 2 1 1 2) as (v1 & v2 & E1 & _); try lra.
  rewrite C1 in E1. discriminate E1.
Qed.

(** C7, amended: in exact real arithmetic, for every constants triple with
    positive reference temperature, positive Sutherland constant and
    positive reference viscosity, the viscosity function is strictly
    increasing on positive temperatures: for 0 < t1 < t2 both viscosities
    are real numbers and viscosity(t1) < viscosity(t2).  (On machine floats
    the order is kept only up to rounding and underflow.) *)
Theorem viscosity_strictly_increasing (t_ref s v_ref t1 t2 : R) :
  0 < t_ref -> 0 < s -> 0 < v_ref -> 0 < t1 -> t1 < t2 ->
  exists v1 v2 : R,
    sutherland_viscosity t1 t_ref s v_ref = Ok (PyFloat v1) /\
    sutherland_viscosity t2 t_ref s v_ref = Ok (PyFloat v2) /\
    v1 < v2.
Proof.
  intros Hr Hs Hv H1 H12.
  assert (Hi : 0 < / t_ref) by now apply Rinv_0_lt_compat.
  assert (Hq1 : 0 <= t1 / t_ref) by (unfold Rdiv; nra).
  assert (Hq2 : 0 <= t2 / t_ref) by (unfold Rdiv; nra).
  do 2 eexists. split; [| split].
  - apply sutherland_viscosity_real; lra.
  - apply sutherland_viscosity_real; lra.
  - assert (G := pow_ratio_increasing t_ref s t1 t2 Hr Hs H1 H12).
    assert (Hc : 0 < v_ref * (t_ref + s)) by (apply Rmult_lt_0_compat; lra).
    replace (v_ref * pow_1_5 (t1 / t_ref) * (t_ref + s) / (t1 + s))
      with (v_ref * (t_ref + s) * (pow_1_5 (t1 / t_ref) / (t1 + s)))
      by (field; lra).
    replace (v_ref * pow_1_5 (t2 / t_ref) * (t_ref + s) / (t2 + s))
      with (v_ref * (t_ref + s) * (pow_1_5 (t2 / t_ref) / (t2 + s)))
      by (field; lra).
    apply Rmult_lt_compat_l; assumption.
Qed.

Lemma viscosity_strictly_increasing_witness :
  exists v1 v2 : R,
    sutherland_viscosity 1 1 1 1 = Ok (PyFloat v1) /\
    sutherland_viscosity 4 1 1 1 = Ok (PyFloat v2) /\
    v1 < v2.
Proof.
  apply (viscosity_strictly_increasing 1 1 1 1 4); lra.
Defined.

(** ** End-to-end: SI, 15 degrees Celsius *)

(** A square below [x] lies below [sqrt x]; a square above lies above. *)
Lemma sqrt_lower_bound (a x : R) : 0 <= a -> a * a < x -> a < sqrt x.
Proof.
  intros Ha H. rewrite <- (sqrt_square a Ha).
  apply sqrt_lt_1; nra.
Qed.

Lemma sqrt_upper_bound (a x : R) : 0 <= x -> 0 <= a -> x < a * a -> sqrt x < a.
Proof.
  intros Hx Ha H. rewrite <- (sqrt_square a Ha).
  apply sqrt_lt_1; nra.
Qed.

(** Enclosure of the viscosity of air at 288.15 K under the SI constants. *)
Lemma sutherland_formula_SI_15C :
  1.57247e-5 < sutherland_formula 288.15 T_REF_SI S_SI V_REF_SI < 1.57248e-5.
Proof.
  unfold sutherland_formula, pow_1_5, T_REF_SI, S_SI, V_REF_SI.
  assert (Hlo : 0.9445132 < sqrt (288.15 / 323.0))
    by (apply sqrt_lower_bound; lra).
  assert (Hhi : sqrt (288.15 / 323.0) < 0.9445133)
    by (apply sqrt_upper_bound; lra).
  set (r := sqrt (288.15 / 323.0)) in *.
  split; lra.
Qed.

(** With the reference temperature 273.15 K, at which air has the
    viscosity 1.716e-5, the formula at 288.15 K gives the value the
    calculation is expected to show. *)
Lemma sutherland_formula_273_15 :
  Rabs (sutherland_formula 288.15 273.15 S_SI V_REF_SI - 1.7894e-5) < 2e-9.
Proof.
  unfold sutherland_formula, pow_1_5, S_SI, V_REF_SI.
  assert (Hlo : 1.0270904 < sqrt (288.15 / 273.15))
    by (apply sqrt_lower_bound; lra).
  assert (Hhi : sqrt (288.15 / 273.15) < 1.0270905)
    by (apply sqrt_upper_bound; lra).
  set (r := sqrt (288.15 / 273.15)) in *.
  apply Rabs_def1; lra.
Qed.

Lemma calculate_SI_15C :
  exists c : calculation,
    calculate "SI" "C" 15.0 = Ok c /\
    calc_T c = 288.15 /\
    calc_unit_label c = "K" /\
    calc_ref c = (323.0, 110.0, 1.716e-5) /\
    calc_viscosity c =
      PyFloat (sutherland_formula 288.15 T_REF_SI S_SI V_REF_SI).
Proof.
  unfold calculate. simpl.
  assert (E : 15.0 + 273.15 = 288.15) by lra. rewrite E.
  rewrite sutherland_viscosity_real by (unfold T_REF_SI, S_SI; lra).
  simpl. eexists. split; [reflexivity |]. simpl. repeat split.
Qed.

(** The viscosity the calculation produces for SI, 'C', 15.0 is further
    than 2e-6 (over a tenth of its value) from 1.7894e-5, the viscosity of
    air at 15 degrees Celsius. *)
Lemma SI_15C_viscosity_is_not_1_7894e_5 :
  ~ (exists (c : calculation) (v : R),
       calculate "SI" "C" 15.0 = Ok c /\
       calc_T c = 288.15 /\
       calc_viscosity c = PyFloat v /\
       Rabs (v - 1.7894e-5) <= 2e-6).
Proof.
  intros (c & v & Hc & _ & Hv & Habs).
  destruct calculate_SI_15C as (c' & Hc' & _ & _ & _ & Hv').
  rewrite Hc in Hc'. injection Hc' as <-.
  rewrite Hv in Hv'. injection Hv' as Ev.
  destruct sutherland_formula_SI_15C as [_ Hhi].
  assert (Hge := Rle_abs (- (v - 1.7894e-5))).
  rewrite Rabs_Ropp in Hge. lra.
Qed.

(** C5, what the code does at SI, 'C', 15.0: the converted temperature is
    288.15 K, as the claim says; the viscosity is the one of Sutherland's
    formula with the constants (323.0, 110.0, 1.716e-5) of the code, and
    that is 1.5725e-5 to five significant digits, not the 1.7894e-5 of the
    claim.  The reference temperature 323.0 is what separates the two:
    with 273.15 in its place the same formula gives 1.7892e-5
    ([sutherland_formula_273_15]). *)
Theorem SI_15C_scenario :
  exists (c : calculation) (v : R),
    calculate "SI" "C" 15.0 = Ok c /\
    calc_T c = 288.15 /\
    calc_unit_label c = "K" /\
    calc_ref c = (323.0, 110.0, 1.716e-5) /\
    calc_viscosity c = PyFloat v /\
    v = sutherland_formula 288.15 323.0 110.0 1.716e-5 /\
    Rabs (v - 1.5725e-5) < 5e-10.
Proof.
  destruct calculate_SI_15C as (c & Hc & HT & HL & HR & Hv).
  exists c, (sutherland_formula 288.15 T_REF_SI S_SI V_REF_SI).
  destruct sutherland_formula_SI_15C as [Hlo Hhi].
  repeat split; try assumption.
  apply Rabs_def1; lra.
Qed.

(** ** The sampled curve *)

Section SetLast.

Variable v : R.

Lemma length_removelast_cons (y : list R) (a : R) :
  length (removelast (a :: y)) = length y.
Proof.
  revert a. induction y as [| b y IH]; intros a; [reflexivity |].
  change (S (length (removelast (b :: y))) = S (length y)).
  f_equal. apply IH.
Qed.

Lemma length_set_last (y : list R) : length (set_last y v) = length y.
Proof.
  destruct y as [| a y]; [reflexivity |].
  unfold set_last. rewrite length_app, length_removelast_cons.
  simpl. lia.
Qed.

(** Entries before the last are kept. *)
Lemma nth_set_last_before (y : list R) (i : nat) (d : R) :
  (S i < length y)%nat -> nth i (set_last y v) d = nth i y d.
Proof.
  intros Hi. destruct y as [| a y]; [simpl in Hi; lia |].
  assert (Hne : a :: y <> []) by discriminate.
  assert (Hl : (i < length (removelast (a :: y)))%nat)
    by (rewrite length_removelast_cons; simpl in Hi; lia).
  unfold set_last. rewrite app_nth1 by exact Hl.
  rewrite (app_removelast_last d Hne) at 2.
  now rewrite app_nth1 by exact Hl.
Qed.

(** The last entry is the new value. *)
Lemma nth_set_last_last (y : list R) (d : R) :
  y <> [] -> nth (length y - 1) (set_last y v) d = v.
Proof.
  intros Hne. destruct y as [| a y]; [now elim Hne |].
  unfold set_last. rewrite app_nth2; rewrite length_removelast_cons.
  - simpl length. replace (S (length y) - 1 - length y)%nat with 0%nat by lia.
    reflexivity.
  - simpl length. lia.
Qed.

End SetLast.

Section Linspace.

Variables start stop : R.
Variable num : nat.
Hypothesis Hnum : (1 < num)%nat.

Lemma INR_div_nonzero : INR (num - 1) <> 0.
Proof. apply not_0_INR. lia. Qed.

(** Whichever of its two scalings numpy takes, the samples before the
    overwrite are [start + i * step]. *)
Lemma linspace_scaled :
  linspace start stop num =
  set_last
    (map (fun i : nat => start + INR i * linspace_step start stop num)
         (seq 0 num))
    stop.
Proof.
  assert (Hd := INR_div_nonzero).
  unfold linspace, linspace_step.
  assert (T1 : (0 <? num - 1)%nat = true) by (apply Nat.ltb_lt; lia).
  assert (T2 : (1 <? num)%nat = true) by (apply Nat.ltb_lt; lia).
  rewrite T1, T2. f_equal.
  destruct (Req_dec_T ((stop - start) / INR (num - 1)) 0) as [Z | NZ];
    rewrite !map_map; apply map_ext; intros i; field; exact Hd.
Qed.

Lemma length_linspace : length (linspace start stop num) = num.
Proof.
  rewrite linspace_scaled, length_set_last, length_map, length_seq.
  reflexivity.
Qed.

Lemma nth_linspace (i : nat) :
  (i < num)%nat ->
  nth i (linspace start stop num) 0 =
  start + INR i * linspace_step start stop num.
Proof.
  intros Hi. rewrite linspace_scaled.
  set (g := fun i : nat => start + INR i * linspace_step start stop num).
  assert (Hlen : length (map g (seq 0 num)) = num)
    by now rewrite length_map, length_seq.
  destruct (Nat.eq_dec i (num - 1)) as [-> | Hne].
  - rewrite <- Hlen at 1. rewrite nth_set_last_last.
    + unfold linspace_step. field. exact INR_div_nonzero.
    + intros E. rewrite E in Hlen. simpl in Hlen. lia.
  - rewrite nth_set_last_before by (rewrite Hlen; lia).
    rewrite (nth_indep _ 0 (g 0%nat)) by (rewrite Hlen; exact Hi).
    rewrite map_nth, seq_nth by exact Hi. reflexivity.
Qed.

Lemma nth_linspace_first : nth 0 (linspace start stop num) 0 = start.
Proof. rewrite nth_linspace by lia. simpl. lra. Qed.

Lemma nth_linspace_last : nth (num - 1) (linspace start stop num) 0 = stop.
Proof.
  rewrite nth_linspace by lia. unfold linspace_step. field.
  exact INR_div_nonzero.
Qed.

Lemma linspace_degenerate (t : R) :
  start = stop -> In t (linspace start stop num) -> t = start.
Proof.
  intros E Hin.
  destruct (In_nth _ _ 0 Hin) as (i & Hi & Ht).
  rewrite length_linspace in Hi. rewrite nth_linspace in Ht by exact Hi.
  rewrite <- Ht. unfold linspace_step. rewrite E.
  unfold Rdiv. rewrite Rminus_diag. lra.
Qed.

End Linspace.

Lemma map_fst_combine_map {A B : Type} (f : A -> B) (l : list A) :
  map fst (combine l (map f l)) = l.
Proof.
  induction l as [| a l IH]; simpl; [reflexivity | now rewrite IH].
Qed.

Lemma length_curve_temps (from to : R) :
  length (curve_temps from to) = curve_count.
Proof. unfold curve_temps, curve_count. apply length_linspace. lia. Qed.

Lemma length_curve_mu (ref : R * R * R) (temps : list R) :
  length (curve_mu ref temps) = length temps.
Proof. destruct ref as [[t_ref s] v_ref]. simpl. apply length_map. Qed.

Lemma nth_curve_temps (from to : R) (i : nat) :
  (i < 100)%nat ->
  nth i (curve_temps from to) 0 = from + INR i * ((to - from) / 99).
Proof.
  intros Hi. unfold curve_temps, curve_count.
  rewrite nth_linspace by lia. unfold linspace_step.
  replace (INR (100 - 1)) with 99; [reflexivity |].
  replace (100 - 1)%nat with 99%nat by lia.
  rewrite INR_IZR_INZ. reflexivity.
Qed.

(** C8: for every pair of reals from and to, the curve sampler produces
    exactly count = 100 points whose temperatures are evenly spaced over the
    closed interval between from and to: the i-th is
    from + i * (to - from) / 99, so neighbours differ by the same step, the
    first is from and the last is to, whichever of the two is larger; when
    from = to every point lies at that temperature. *)
Theorem curve_sampler_evenly_spaced (from to : R) (ref : R * R * R) :
  let points := curve_points from to ref in
  let temps := map fst points in
  curve_count = 100%nat /\
  length points = curve_count /\
  temps = curve_temps from to /\
  (forall i : nat, (i < 100)%nat ->
     nth i temps 0 = from + INR i * ((to - from) / 99)) /\
  (forall i : nat, (S i < 100)%nat ->
     nth (S i) temps 0 - nth i temps 0 = (to - from) / 99) /\
  nth 0 temps 0 = from /\
  nth 99 temps 0 = to /\
  (from = to -> forall t : R, In t temps -> t = from).
Proof.
  intros points temps.
  assert (Et : temps = curve_temps from to).
  { unfold temps, points, curve_points.
    destruct ref as [[t_ref s] v_ref]. simpl curve_mu.
    apply map_fst_combine_map. }
  rewrite Et.
  split; [reflexivity |]. split; [| split; [reflexivity |]].
  { unfold points, curve_points.
    rewrite length_combine, length_curve_mu, length_curve_temps.
    apply Nat.min_id. }
  split; [intros i Hi; now apply nth_curve_temps |].
  split.
  { intros i Hi. rewrite !nth_curve_temps by lia. rewrite S_INR. lra. }
  split; [| split].
  - rewrite nth_curve_temps by lia. simpl. lra.
  - rewrite nth_curve_temps by lia.
    replace (INR 99) with 99 by (rewrite INR_IZR_INZ; reflexivity). lra.
  - intros E t Hin. unfold curve_temps in Hin.
    apply (linspace_degenerate from to curve_count) with (t := t);
      [unfold curve_count; lia | exact E | exact Hin].
Qed.

Lemma curve_sampler_evenly_spaced_witness :
  nth 33 (map fst (curve_points 0 99 (T_REF_SI, S_SI, V_REF_SI))) 0 = 33 /\
  nth 33 (map fst (curve_points 99 0 (T_REF_SI, S_SI, V_REF_SI))) 0 = 66 /\
  (forall t : R,
     In t (map fst (curve_points 7 7 (T_REF_SI, S_SI, V_REF_SI))) -> t = 7).
Proof.
  split; [| split].
  - destruct (curve_sampler_evenly_spaced 0 99 (T_REF_SI, S_SI, V_REF_SI))
      as (_ & _ & _ & H & _).
    rewrite (H 33%nat) by lia.
    replace (INR 33) with 33 by (rewrite INR_IZR_INZ; reflexivity). lra.
  - destruct (curve_sampler_evenly_spaced 99 0 (T_REF_SI, S_SI, V_REF_SI))
      as (_ & _ & _ & H & _).
    rewrite (H 33%nat) by lia.
    replace (INR 33) with 33 by (rewrite INR_IZR_INZ; reflexivity). lra.
  - destruct (curve_sampler_evenly_spaced 7 7 (T_REF_SI, S_SI, V_REF_SI))
      as (_ & _ & _ & _ & _ & _ & _ & H).
    apply H. reflexivity.
Defined.

(** ** The two evaluations of the formula agree *)

(** On a [float64] temperature the formula gives a finite value exactly
    where the float evaluation returns a real, and then the same one. *)
Lemma np_sutherland_viscosity_agrees (temp t_ref s v_ref : R) :
  np_sutherland_viscosity temp t_ref s v_ref =
  match sutherland_viscosity temp t_ref s v_ref with
  | Ok (PyFloat v) => Some v
  | _ => None
  end.
Proof.
  unfold np_sutherland_viscosity, sutherland_viscosity, np_div, float_div.
  destruct (Req_dec_T t_ref 0) as [Z | NZ]; [reflexivity |]. simpl.
  unfold np_pow, float_pow, py_div.
  destruct (total_order_T (temp / t_ref) 0) as [[L | E] | G]; simpl.
  - destruct (is_integer_dec 1.5) as [I | N]; simpl;
      destruct (Req_dec_T (temp + s) 0); reflexivity.
  - destruct (total_order_T 1.5 0) as [[L | E'] | G]; simpl;
      try reflexivity; destruct (Req_dec_T (temp + s) 0); reflexivity.
  - destruct (Req_dec_T (temp + s) 0); reflexivity.
Qed.

(** A completed calculation carries the 100 samples from the sea-level
    reference to the converted temperature. *)
Lemma calculate_curve (unit_system temp_unit : string) (temp_input : R)
      (c : calculation) :
  calculate unit_system temp_unit temp_input = Ok c ->
  calc_temps c = curve_temps (calc_base_temp c) (calc_T c) /\
  calc_mu c = curve_mu (calc_ref c) (calc_temps c) /\
  length (calc_temps c) = 100%nat /\
  length (calc_mu c) = 100%nat.
Proof.
  unfold calculate.
  destruct (String.eqb unit_system "SI").
  - destruct (to_kelvin temp_input temp_unit) as [T | e]; [| discriminate].
    simpl. destruct (sutherland_viscosity T T_REF_SI S_SI V_REF_SI)
      as [v | e]; [| discriminate].
    simpl. intros H. injection H as <-. simpl.
    rewrite length_map, length_curve_temps. repeat split.
  - destruct (to_rankine temp_input temp_unit) as [T | e]; [| discriminate].
    simpl. destruct (sutherland_viscosity T T_REF_USC S_USC V_REF_USC)
      as [v | e]; [| discriminate].
    simpl. intros H. injection H as <-. simpl.
    rewrite length_map, length_curve_temps. repeat split.
Qed.

(** * Further properties of the code *)

(** ** Converters: the two scales agree *)

(** X1: in exact real arithmetic, on each of the four units the Rankine
    conversion is 9/5 of the Kelvin conversion of the same value (on
    machine floats the two agree up to rounding). *)
Theorem rankine_is_nine_fifths_of_kelvin (value : R) (unit : string) :
  In unit unit_symbols ->
  exists k : R,
    to_kelvin value unit = Ok k /\
    to_rankine value unit = Ok (k * (9 / 5)).
Proof.
  intros H. apply unit_symbols_cases in H.
  destruct H as [-> | [-> | [-> | ->]]];
    unfold to_kelvin, to_rankine; simpl; eexists; split;
    try reflexivity; f_equal; lra.
Qed.

Lemma rankine_is_nine_fifths_of_kelvin_witness :
  exists k : R,
    to_kelvin 32 "F" = Ok k /\ to_rankine 32 "F" = Ok (k * (9 / 5)).
Proof.
  apply (rankine_is_nine_fifths_of_kelvin 32 "F").
  simpl. auto.
Defined.

(** X2: in exact real arithmetic, converting to one absolute scale and
    then from it to the other gives what the direct conversion gives, for
    every value and every unit, supported or not (the error passes
    through; on machine floats the values agree up to rounding). *)
Theorem converters_compose (value : R) (unit : string) :
  (r <- to_rankine value unit ;; to_kelvin r "R") = to_kelvin value unit /\
  (k <- to_kelvin value unit ;; to_rankine k "K") = to_rankine value unit.
Proof.
  unfold to_kelvin, to_rankine.
  destruct (String.eqb unit "C"); [simpl; split; f_equal; lra |].
  destruct (String.eqb unit "F"); [simpl; split; f_equal; lra |].
  destruct (String.eqb unit "K"); [simpl; split; f_equal; lra |].
  destruct (String.eqb unit "R"); [simpl; split; f_equal; lra |].
  split; reflexivity.
Qed.

(** ** Sutherland's formula: every outcome *)

(** The three outcomes of the function, by its arguments. *)
Lemma sutherland_viscosity_cases (temp t_ref s v_ref : R) :
  ((t_ref = 0 \/ temp + s = 0) /\
   sutherland_viscosity temp t_ref s v_ref = Raise ZeroDivisionError) \/
  (t_ref <> 0 /\ temp + s <> 0 /\ temp / t_ref < 0 /\
   sutherland_viscosity temp t_ref s v_ref = Ok PyComplex) \/
  (t_ref <> 0 /\ temp + s <> 0 /\ 0 <= temp / t_ref /\
   sutherland_viscosity temp t_ref s v_ref =
   Ok (PyFloat (sutherland_formula temp t_ref s v_ref))).
Proof.
  destruct (Req_dec_T t_ref 0) as [Z | NZ].
  { left. split; [now left |]. rewrite Z.
    apply sutherland_viscosity_zero_ref. }
  destruct (Req_dec_T (temp + s) 0) as [ZS | NZS].
  { left. split; [now right |].
    unfold sutherland_viscosity. rewrite float_div_ok by assumption. simpl.
    destruct (Rlt_le_dec (temp / t_ref) 0) as [L | G].
    - rewrite float_pow_1_5_neg by assumption. simpl.
      unfold py_div. destruct (Req_dec_T (temp + s) 0); [reflexivity | tauto].
    - rewrite float_pow_1_5_nonneg by assumption. simpl.
      unfold py_div. destruct (Req_dec_T (temp + s) 0); [reflexivity | tauto]. }
  destruct (Rlt_le_dec (temp / t_ref) 0) as [L | G].
  - right; left. repeat split; try assumption.
    now apply sutherland_viscosity_complex.
  - right; right. repeat split; try assumption.
    unfold sutherland_formula. now apply sutherland_viscosity_real.
Qed.

(** X6: in exact real arithmetic the viscosity does not depend on the
    scale of the temperatures: multiplying temp, t_ref and s by one
    non-zero factor leaves the outcome of the real model unchanged,
    whether a real, a complex number or a division by zero (on machine
    floats the values agree up to rounding). *)
Theorem sutherland_viscosity_scale_invariant (k temp t_ref s v_ref : R) :
  k <> 0 ->
  sutherland_viscosity (k * temp) (k * t_ref) (k * s) v_ref =
  sutherland_viscosity temp t_ref s v_ref.
Proof.
  intros Hk. unfold sutherland_viscosity, float_div.
  destruct (Req_dec_T (k * t_ref) 0) as [Z | NZ];
    destruct (Req_dec_T t_ref 0) as [Z' | NZ']; try reflexivity.
  - exfalso. apply Rmult_integral in Z. tauto.
  - exfalso. apply NZ. rewrite Z'. ring.
  - replace (k * temp / (k * t_ref)) with (temp / t_ref)
      by (field; split; assumption).
    simpl. destruct (float_pow (temp / t_ref) 1.5) as [p | e];
      [simpl | reflexivity].
    unfold py_div.
    destruct (Req_dec_T (k * temp + k * s) 0) as [ZS | NZS];
      destruct (Req_dec_T (temp + s) 0) as [ZS' | NZS']; try reflexivity.
    + exfalso. apply NZS'.
      assert (P : k * (temp + s) = 0) by lra.
      apply Rmult_integral in P. tauto.
    + exfalso. apply NZS. rewrite <- Rmult_plus_distr_l, ZS'. ring.
    + destruct p as [a |]; simpl; [| reflexivity].
      do 2 f_equal. field. split; [exact NZS' |].
      intros P. apply NZS. exact P.
Qed.

Lemma sutherland_viscosity_scale_invariant_witness :
  sutherland_viscosity (9 / 5 * 288.15) (9 / 5 * 323) (9 / 5 * 110) 1 =
  sutherland_viscosity 288.15 323 110 1.
Proof.
  apply (sutherland_viscosity_scale_invariant (9 / 5) 288.15 323 110 1).
  lra.
Defined.

(** X7: in exact real arithmetic a real viscosity is proportional to the
    reference viscosity (on machine floats, up to rounding). *)
Theorem sutherland_viscosity_linear_in_v_ref (k temp t_ref s v_ref v : R) :
  sutherland_viscosity temp t_ref s v_ref = Ok (PyFloat v) ->
  sutherland_viscosity temp t_ref s (k * v_ref) = Ok (PyFloat (k * v)).
Proof.
  unfold sutherland_viscosity.
  destruct (float_div temp t_ref) as [q | e]; [simpl | discriminate].
  destruct (float_pow q 1.5) as [p | e]; [simpl | discriminate].
  unfold py_div.
  destruct (Req_dec_T (temp + s) 0) as [Z | NZ]; [discriminate |].
  destruct p as [a |]; simpl; [| discriminate].
  intros [= <-]. do 2 f_equal. field. exact NZ.
Qed.

Lemma sutherland_viscosity_linear_in_v_ref_witness :
  sutherland_viscosity 2 2 3 (10 * 7) = Ok (PyFloat (10 * 7)).
Proof.
  apply (sutherland_viscosity_linear_in_v_ref 10 2 2 3 7 7).
  apply sutherland_viscosity_at_ref; lra.
Defined.

(** ** Sutherland's formula: sign and position against the reference *)

Lemma pow_1_5_pos (x : R) : 0 < x -> 0 < pow_1_5 x.
Proof.
  intros Hx. unfold pow_1_5.
  apply Rmult_lt_0_compat; [assumption | now apply sqrt_lt_R0].
Qed.

Lemma quotient_pos (t t_ref : R) : 0 < t -> 0 < t_ref -> 0 < t / t_ref.
Proof.
  intros Ht Hr. unfold Rdiv.
  apply Rmult_lt_0_compat; [assumption | now apply Rinv_0_lt_compat].
Qed.

(** The value of the formula is positive on positive arguments. *)
Lemma sutherland_formula_pos (temp t_ref s v_ref : R) :
  0 < temp -> 0 < t_ref -> 0 <= s -> 0 < v_ref ->
  0 < sutherland_formula temp t_ref s v_ref.
Proof.
  intros Ht Hr Hs Hv. unfold sutherland_formula.
  assert (Hp := pow_1_5_pos _ (quotient_pos temp t_ref Ht Hr)).
  assert (Hi : 0 < / (temp + s)) by (apply Rinv_0_lt_compat; lra).
  assert (Hn : 0 < v_ref * pow_1_5 (temp / t_ref) * (t_ref + s)).
  { apply Rmult_lt_0_compat; [| lra].
    apply Rmult_lt_0_compat; assumption. }
  unfold Rdiv at 1. apply Rmult_lt_0_compat; assumption.
Qed.

(** The value of the formula grows with the temperature. *)
Lemma sutherland_formula_increasing (t_ref s v_ref t1 t2 : R) :
  0 < t_ref -> 0 < s -> 0 < v_ref -> 0 < t1 -> t1 < t2 ->
  sutherland_formula t1 t_ref s v_ref < sutherland_formula t2 t_ref s v_ref.
Proof.
  intros Hr Hs Hv H1 H12. unfold sutherland_formula.
  assert (G := pow_ratio_increasing t_ref s t1 t2 Hr Hs H1 H12).
  assert (Hc : 0 < v_ref * (t_ref + s)) by (apply Rmult_lt_0_compat; lra).
  replace (v_ref * pow_1_5 (t1 / t_ref) * (t_ref + s) / (t1 + s))
    with (v_ref * (t_ref + s) * (pow_1_5 (t1 / t_ref) / (t1 + s)))
    by (field; lra).
  replace (v_ref * pow_1_5 (t2 / t_ref) * (t_ref + s) / (t2 + s))
    with (v_ref * (t_ref + s) * (pow_1_5 (t2 / t_ref) / (t2 + s)))
    by (field; lra).
  apply Rmult_lt_compat_l; assumption.
Qed.

Lemma sutherland_formula_at_ref (t_ref s v_ref : R) :
  t_ref <> 0 -> t_ref + s <> 0 ->
  sutherland_formula t_ref t_ref s v_ref = v_ref.
Proof.
  intros Hr Hs. unfold sutherland_formula.
  replace (t_ref / t_ref) with 1 by (field; assumption).
  rewrite pow_1_5_one. field. assumption.
Qed.

(** On positive temperatures the function returns the value of the
    formula. *)
Lemma sutherland_viscosity_on_positive (temp t_ref s v_ref : R) :
  0 < temp -> 0 < t_ref -> 0 <= s ->
  sutherland_viscosity temp t_ref s v_ref =
  Ok (PyFloat (sutherland_formula temp t_ref s v_ref)).
Proof.
  intros Ht Hr Hs. unfold sutherland_formula.
  apply sutherland_viscosity_real; try lra.
  left. now apply quotient_pos.
Qed.

(** ** The calculation as a whole *)

(** [calculate] is its converter, then the formula, then the record. *)
Lemma calculate_unfold (unit_system temp_unit : string) (temp_input : R) :
  calculate unit_system temp_unit temp_input =
  (T <- convert unit_system temp_input temp_unit ;;
   base_temp <- convert unit_system 15.0 "C" ;;
   viscosity <- viscosity_with (constants unit_system) T ;;
   Ok {| calc_T := T; calc_base_temp := base_temp;
         calc_viscosity := viscosity;
         calc_unit_label :=
           if String.eqb unit_system "SI" then "K" else "R";
         calc_ref := constants unit_system;
         calc_temps := curve_temps base_temp T;
         calc_mu := curve_mu (constants unit_system)
                             (curve_temps base_temp T) |}).
Proof.
  unfold calculate, convert, constants, viscosity_with.
  destruct (String.eqb unit_system "SI"); reflexivity.
Qed.

Lemma convert_sea_level (unit_system : string) :
  convert unit_system 15.0 "C" =
  Ok (if String.eqb unit_system "SI" then 288.15 else 518.67).
Proof.
  unfold convert. destruct (String.eqb unit_system "SI");
    unfold to_kelvin, to_rankine; simpl; f_equal; lra.
Qed.

(** What a completed calculation holds. *)
Lemma calculate_inv (unit_system temp_unit : string) (temp_input : R)
      (c : calculation) :
  calculate unit_system temp_unit temp_input = Ok c ->
  convert unit_system temp_input temp_unit = Ok (calc_T c) /\
  calc_base_temp c =
    (if String.eqb unit_system "SI" then 288.15 else 518.67) /\
  viscosity_with (constants unit_system) (calc_T c) = Ok (calc_viscosity c) /\
  calc_ref c = constants unit_system /\
  calc_temps c = curve_temps (calc_base_temp c) (calc_T c) /\
  calc_mu c = curve_mu (calc_ref c) (calc_temps c).
Proof.
  rewrite calculate_unfold, convert_sea_level.
  destruct (convert unit_system temp_input temp_unit) as [T | e];
    [simpl | discriminate].
  destruct (viscosity_with (constants unit_system) T) as [w | e] eqn:Hw;
    [simpl | discriminate].
  intros [= <-]. simpl. repeat split. exact Hw.
Qed.

(** A conversion and a viscosity that succeed give a completed
    calculation. *)
Lemma calculate_ok (unit_system temp_unit : string) (temp_input T : R)
      (w : pyvalue) :
  convert unit_system temp_input temp_unit = Ok T ->
  viscosity_with (constants unit_system) T = Ok w ->
  exists c : calculation,
    calculate unit_system temp_unit temp_input = Ok c /\
    calc_T c = T /\ calc_viscosity c = w.
Proof.
  intros HT Hw. rewrite calculate_unfold, convert_sea_level, HT. simpl.
  rewrite Hw. simpl. eexists. split; [reflexivity |]. split; reflexivity.
Qed.

Lemma convert_raises (unit_system temp_unit : string) (value : R) (e : exn) :
  convert unit_system value temp_unit = Raise e ->
  e = unsupported temp_unit /\ ~ In temp_unit unit_symbols.
Proof.
  intros H.
  assert (N : ~ In temp_unit unit_symbols).
  { intros I. destruct (converters_accept value temp_unit I)
      as [[k Hk] [r Hr]].
    unfold convert in H. destruct (String.eqb unit_system "SI"); congruence. }
  split; [| exact N].
  destruct (converters_reject value temp_unit N) as [HK HR].
  unfold convert in H. destruct (String.eqb unit_system "SI"); congruence.
Qed.

Lemma constants_positive (unit_system : string) :
  exists t_ref s v_ref : R,
    constants unit_system = (t_ref, s, v_ref) /\
    s = (if String.eqb unit_system "SI" then S_SI else S_USC) /\
    0 < t_ref /\ 0 < s /\ 0 < v_ref.
Proof.
  unfold constants. destruct (String.eqb unit_system "SI").
  - exists T_REF_SI, S_SI, V_REF_SI.
    unfold T_REF_SI, S_SI, V_REF_SI. repeat split; lra.
  - exists T_REF_USC, S_USC, V_REF_USC.
    unfold T_REF_USC, S_USC, V_REF_USC. repeat split; lra.
Qed.

(** What a calculation can raise. *)
Lemma calculate_raise_cases
      (unit_system temp_unit : string) (value : R) (e : exn) :
  calculate unit_system temp_unit value = Raise e ->
  (e = unsupported temp_unit /\ ~ In temp_unit unit_symbols) \/
  e = ZeroDivisionError.
Proof.
  rewrite calculate_unfold, convert_sea_level.
  destruct (convert unit_system value temp_unit) as [T | e'] eqn:HT; simpl.
  - destruct (constants unit_system) as [[t_ref s] v_ref]. simpl.
    destruct (sutherland_viscosity_cases T t_ref s v_ref)
      as [[Hz E] | [(H1 & H2 & H3 & E) | (H1 & H2 & H3 & E)]];
      rewrite E; simpl; [| discriminate | discriminate].
    intros [= <-]. now right.
  - intros [= <-]. left. apply (convert_raises _ _ _ _ HT).
Qed.

(** X10: the calculation raises a ValueError exactly on a unit outside
    the four symbols, under either unit system and for every value, and
    its message is then "Unsupported unit: " followed by that unit. *)
Theorem calculate_value_error_iff
        (unit_system temp_unit : string) (value : R) :
  ((exists msg : string,
      calculate unit_system temp_unit value = Raise (ValueError msg)) <->
   ~ In temp_unit unit_symbols) /\
  (forall msg : string,
     calculate unit_system temp_unit value = Raise (ValueError msg) ->
     msg = "Unsupported unit: " ++ temp_unit).
Proof.
  split; [split |].
  - intros [msg H].
    destruct (calculate_raise_cases _ _ _ _ H) as [[_ N] | E];
      [exact N | discriminate E].
  - intros N. exists ("Unsupported unit: " ++ temp_unit).
    rewrite calculate_unfold.
    destruct (converters_reject value temp_unit N) as [HK HR].
    unfold convert at 1.
    destruct (String.eqb unit_system "SI"); [rewrite HK | rewrite HR];
      reflexivity.
  - intros msg H.
    destruct (calculate_raise_cases _ _ _ _ H) as [[E _] | E];
      [| discriminate E].
    unfold unsupported in E. injection E as ->. reflexivity.
Qed.

Lemma calculate_value_error_iff_witness :
  exists msg : string, calculate "USC" "X" 0 = Raise (ValueError msg).
Proof.
  apply (proj1 (calculate_value_error_iff "USC" "X" 0)).
  simpl. intros [H | [H | [H | [H | []]]]]; discriminate H.
Defined.

Lemma pow_1_5_nonneg (x : R) : 0 <= x -> 0 <= pow_1_5 x.
Proof.
  intros Hx. unfold pow_1_5.
  apply Rmult_le_pos; [assumption | apply sqrt_pos].
Qed.

(** ** The curve of a completed calculation *)

Lemma nth_curve_temps_first (from to : R) : nth 0 (curve_temps from to) 0 = from.
Proof. rewrite nth_curve_temps by lia. simpl. lra. Qed.

Lemma nth_curve_temps_last (from to : R) : nth 99 (curve_temps from to) 0 = to.
Proof.
  rewrite nth_curve_temps by lia.
  replace (INR 99) with 99 by (rewrite INR_IZR_INZ; reflexivity). lra.
Qed.

Lemma nth_curve_mu (ref : R * R * R) (temps : list R) (i : nat) :
  (i < length temps)%nat ->
  nth i (curve_mu ref temps) None =
  (let '(t_ref, s, v_ref) := ref in
   np_sutherland_viscosity (nth i temps 0) t_ref s v_ref).
Proof.
  intros Hi. destruct ref as [[t_ref s] v_ref]. unfold curve_mu.
  rewrite (nth_indep _ None (np_sutherland_viscosity 0 t_ref s v_ref))
    by (rewrite length_map; exact Hi).
  apply (map_nth (fun t => np_sutherland_viscosity t t_ref s v_ref)).
Qed.

(** X13: in every completed calculation the curve has 100 temperatures,
    the first is the sea-level reference, the conversion of 15 degrees
    Celsius to the scale of the unit system, whatever the input, and the
    last is the converted input temperature. *)
Theorem calculate_curve_endpoints
        (unit_system temp_unit : string) (value : R) (c : calculation) :
  calculate unit_system temp_unit value = Ok c ->
  length (calc_temps c) = 100%nat /\
  convert unit_system 15.0 "C" = Ok (calc_base_temp c) /\
  nth 0 (calc_temps c) 0 = calc_base_temp c /\
  convert unit_system value temp_unit = Ok (calc_T c) /\
  nth 99 (calc_temps c) 0 = calc_T c.
Proof.
  intros H. destruct (calculate_inv _ _ _ _ H)
    as (HT & Hb & _ & _ & Ht & _).
  rewrite Ht. split; [apply length_curve_temps |].
  rewrite nth_curve_temps_first, nth_curve_temps_last, convert_sea_level, Hb.
  repeat split; assumption.
Qed.

(** A calculation that completes: SI, 32 degrees Fahrenheit. *)
Lemma calculate_SI_32F :
  exists c : calculation, calculate "SI" "F" 32 = Ok c.
Proof.
  destruct (calculate_ok "SI" "F" 32 ((32 - 32) * 5 / 9 + 273.15)
              (PyFloat (sutherland_formula ((32 - 32) * 5 / 9 + 273.15)
                          T_REF_SI S_SI V_REF_SI)))
    as (c & Hc & _).
  - reflexivity.
  - simpl. apply sutherland_viscosity_on_positive;
      unfold T_REF_SI, S_SI; lra.
  - exists c. exact Hc.
Qed.

Lemma calculate_curve_endpoints_witness :
  exists c : calculation,
    calculate "SI" "F" 32 = Ok c /\
    nth 0 (calc_temps c) 0 = calc_base_temp c /\
    nth 99 (calc_temps c) 0 = calc_T c.
Proof.
  destruct calculate_SI_32F as [c Hc].
  exists c. split; [exact Hc |].
  destruct (calculate_curve_endpoints "SI" "F" 32 c Hc)
    as (_ & _ & H0 & _ & H99).
  split; [exact H0 | exact H99].
Defined.

(** X14: the curve ends at the displayed value: the last viscosity of the
    curve of a completed calculation is its single-point viscosity, and is
    [nan] where that one is a complex number. *)
Theorem calculate_curve_ends_at_viscosity
        (unit_system temp_unit : string) (value : R) (c : calculation) :
  calculate unit_system temp_unit value = Ok c ->
  length (calc_mu c) = 100%nat /\
  nth 99 (calc_mu c) None = finite_part (calc_viscosity c).
Proof.
  intros H. destruct (calculate_inv _ _ _ _ H)
    as (_ & _ & Hv & Hr & Ht & Hm).
  rewrite Hm, Ht, length_curve_mu, length_curve_temps.
  split; [reflexivity |].
  rewrite nth_curve_mu by (rewrite length_curve_temps; unfold curve_count; lia).
  rewrite nth_curve_temps_last, Hr.
  destruct (constants unit_system) as [[t_ref s] v_ref].
  simpl in Hv. rewrite np_sutherland_viscosity_agrees, Hv.
  destruct (calc_viscosity c); reflexivity.
Qed.

Lemma calculate_curve_ends_at_viscosity_witness :
  exists c : calculation,
    calculate "SI" "F" 32 = Ok c /\
    nth 99 (calc_mu c) None = finite_part (calc_viscosity c).
Proof.
  destruct calculate_SI_32F as [c Hc].
  exists c. split; [exact Hc |].
  apply (calculate_curve_ends_at_viscosity "SI" "F" 32 c Hc).
Defined.

(** ** The two unit systems on one input *)

Lemma to_rankine_of_to_kelvin (value : R) (unit : string) (k r : R) :
  to_kelvin value unit = Ok k -> to_rankine value unit = Ok r ->
  r = k * (9 / 5).
Proof.
  unfold to_kelvin, to_rankine.
  destruct (String.eqb unit "C"); [intros [= <-] [= <-]; lra |].
  destruct (String.eqb unit "F"); [intros [= <-] [= <-]; lra |].
  destruct (String.eqb unit "K"); [intros [= <-] [= <-]; lra |].
  destruct (String.eqb unit "R"); [intros [= <-] [= <-]; lra |].
  discriminate.
Qed.

(** X15: in exact real arithmetic, on one input the SI calculation and
    the USC calculation work on the same physical temperatures: the
    converted temperature and every temperature of the curve under USC
    are 9/5 of those under SI (on machine floats, up to rounding). *)
Theorem calculate_SI_USC_same_temperatures
        (temp_unit : string) (value : R) (c1 c2 : calculation) :
  calculate "SI" temp_unit value = Ok c1 ->
  calculate "USC" temp_unit value = Ok c2 ->
  calc_T c2 = calc_T c1 * (9 / 5) /\
  (forall i : nat, (i < 100)%nat ->
     nth i (calc_temps c2) 0 = nth i (calc_temps c1) 0 * (9 / 5)).
Proof.
  intros H1 H2.
  destruct (calculate_inv _ _ _ _ H1) as (HT1 & Hb1 & _ & _ & Ht1 & _).
  destruct (calculate_inv _ _ _ _ H2) as (HT2 & Hb2 & _ & _ & Ht2 & _).
  simpl in Hb1, Hb2. unfold convert in HT1, HT2. simpl in HT1, HT2.
  assert (ET := to_rankine_of_to_kelvin _ _ _ _ HT1 HT2).
  split; [exact ET |].
  intros i Hi. rewrite Ht1, Ht2, !nth_curve_temps by exact Hi.
  rewrite Hb1, Hb2, ET. lra.
Qed.

(** A calculation that completes: USC, 32 degrees Fahrenheit. *)
Lemma calculate_USC_32F :
  exists c : calculation, calculate "USC" "F" 32 = Ok c.
Proof.
  destruct (calculate_ok "USC" "F" 32 (32 + 459.67)
              (PyFloat (sutherland_formula (32 + 459.67)
                          T_REF_USC S_USC V_REF_USC)))
    as (c & Hc & _).
  - reflexivity.
  - simpl. apply sutherland_viscosity_on_positive;
      unfold T_REF_USC, S_USC; lra.
  - exists c. exact Hc.
Qed.

Lemma calculate_SI_USC_same_temperatures_witness :
  exists c1 c2 : calculation,
    calculate "SI" "F" 32 = Ok c1 /\
    calculate "USC" "F" 32 = Ok c2 /\
    calc_T c2 = calc_T c1 * (9 / 5).
Proof.
  destruct calculate_SI_32F as [c1 H1].
  destruct calculate_USC_32F as [c2 H2].
  exists c1, c2. split; [exact H1 | split; [exact H2 |]].
  apply (calculate_SI_USC_same_temperatures "F" 32 c1 c2 H1 H2).
Defined.

(** ** Order and range of the sampled temperatures *)

Lemma INR_sample_index (i : nat) : (i < 100)%nat -> 0 <= INR i <= 99.
Proof.
  intros Hi. split; [apply pos_INR |].
  replace 99 with (INR 99) by (rewrite INR_IZR_INZ; reflexivity).
  apply le_INR. lia.
Qed.

(** X16: the temperatures of the curve are in order: never decreasing
    when the curve runs upwards (from <= to), never increasing when it
    runs downwards (to <= from). *)
Theorem curve_temps_ordered (from to : R) (i : nat) :
  (S i < 100)%nat ->
  (from <= to ->
   nth i (curve_temps from to) 0 <= nth (S i) (curve_temps from to) 0) /\
  (to <= from ->
   nth (S i) (curve_temps from to) 0 <= nth i (curve_temps from to) 0).
Proof.
  intros Hi. rewrite !nth_curve_temps by lia. rewrite S_INR.
  split; intros H; lra.
Qed.

Lemma curve_temps_ordered_witness :
  (288.15 <= 300 ->
   nth 5 (curve_temps 288.15 300) 0 <= nth 6 (curve_temps 288.15 300) 0) /\
  (300 <= 288.15 ->
   nth 6 (curve_temps 288.15 300) 0 <= nth 5 (curve_temps 288.15 300) 0).
Proof.
  apply (curve_temps_ordered 288.15 300 5). lia.
Defined.

Lemma curve_temps_between (from to : R) (i : nat) :
  (i < 100)%nat ->
  Rmin from to <= nth i (curve_temps from to) 0 <= Rmax from to.
Proof.
  intros Hi. rewrite nth_curve_temps by exact Hi.
  destruct (INR_sample_index i Hi) as [Hlo Hhi].
  set (a := INR i) in *.
  destruct (Rle_dec from to) as [L | G].
  - rewrite Rmin_left, Rmax_right by exact L. split; nra.
  - rewrite Rmin_right, Rmax_left by lra. split; nra.
Qed.

(** X17: every temperature of the curve lies in the closed interval
    between its two ends, whichever is larger. *)
Theorem curve_temps_within_interval (from to : R) (i : nat) :
  (i < 100)%nat ->
  Rmin from to <= nth i (curve_temps from to) 0 <= Rmax from to.
Proof. exact (curve_temps_between from to i). Qed.

Lemma curve_temps_within_interval_witness :
  Rmin 288.15 273.15 <= nth 42 (curve_temps 288.15 273.15) 0
  <= Rmax 288.15 273.15.
Proof.
  apply (curve_temps_within_interval 288.15 273.15 42). lia.
Defined.

(** ** The viscosities of the curve *)

(** A [float64] sample is [inf] or [nan] exactly where the formula has a
    zero divisor or a negative quotient. *)
Lemma np_sutherland_viscosity_none_iff (temp t_ref s v_ref : R) :
  np_sutherland_viscosity temp t_ref s v_ref = None <->
  (t_ref = 0 \/ temp / t_ref < 0 \/ temp + s = 0).
Proof.
  rewrite np_sutherland_viscosity_agrees.
  destruct (sutherland_viscosity_cases temp t_ref s v_ref)
    as [[Hz E] | [(H1 & H2 & H3 & E) | (H1 & H2 & H3 & E)]]; rewrite E.
  - split; [intros _; tauto | reflexivity].
  - split; [intros _; tauto | reflexivity].
  - split; [discriminate | intros [H | [H | H]]; [tauto | lra | tauto]].
Qed.

Lemma np_sutherland_viscosity_on_positive (temp t_ref s v_ref : R) :
  0 < temp -> 0 < t_ref -> 0 <= s ->
  np_sutherland_viscosity temp t_ref s v_ref =
  Some (sutherland_formula temp t_ref s v_ref).
Proof.
  intros Ht Hr Hs.
  rewrite np_sutherland_viscosity_agrees,
    sutherland_viscosity_on_positive by assumption.
  reflexivity.
Qed.

(** The samples of a curve between two positive temperatures are
    positive. *)
Lemma curve_temps_positive (from to : R) (i : nat) :
  0 < from -> 0 < to -> (i < 100)%nat ->
  0 < nth i (curve_temps from to) 0.
Proof.
  intros Hf Ht Hi. destruct (curve_temps_between from to i Hi) as [Hlo _].
  apply Rlt_le_trans with (Rmin from to); [| exact Hlo].
  apply Rmin_glb_lt; assumption.
Qed.

Lemma sea_level_positive (unit_system : string) :
  0 < (if String.eqb unit_system "SI" then 288.15 else 518.67).
Proof. destruct (String.eqb unit_system "SI"); lra. Qed.

(** The viscosity sample of a completed calculation with a positive
    temperature, by its index. *)
Lemma calculate_mu_sample
      (unit_system temp_unit : string) (value : R) (c : calculation)
      (i : nat) (t_ref s v_ref : R) :
  calculate unit_system temp_unit value = Ok c ->
  constants unit_system = (t_ref, s, v_ref) ->
  0 < calc_T c -> (i < 100)%nat ->
  0 < nth i (calc_temps c) 0 /\
  nth i (calc_mu c) None =
  Some (sutherland_formula (nth i (calc_temps c) 0) t_ref s v_ref).
Proof.
  intros H Ec HT Hi.
  destruct (calculate_inv _ _ _ _ H) as (_ & Hb & _ & Hr & Ht & Hm).
  destruct (constants_positive unit_system)
    as (t_ref' & s' & v_ref' & Ec' & _ & Hpr & Hps & Hpv).
  rewrite Ec in Ec'. injection Ec' as <- <- <-.
  assert (Hpos : 0 < nth i (calc_temps c) 0).
  { rewrite Ht. apply curve_temps_positive; try assumption.
    rewrite Hb. apply sea_level_positive. }
  split; [exact Hpos |].
  rewrite Hm, nth_curve_mu
    by (rewrite Ht, length_curve_temps; unfold curve_count; lia).
  rewrite Hr, Ec. apply np_sutherland_viscosity_on_positive; lra.
Qed.

(** X20: the list comprehension for the curve never raises: in a
    completed calculation a viscosity of the curve is [nan] or [inf]
    exactly when its temperature is negative, and a finite number
    otherwise. *)
Theorem calculate_curve_nonfinite_iff
        (unit_system temp_unit : string) (value : R) (c : calculation)
        (i : nat) :
  calculate unit_system temp_unit value = Ok c -> (i < 100)%nat ->
  (nth i (calc_mu c) None = None <-> nth i (calc_temps c) 0 < 0).
Proof.
  intros H Hi.
  destruct (calculate_inv _ _ _ _ H) as (_ & _ & _ & Hr & Ht & Hm).
  destruct (constants_positive unit_system)
    as (t_ref & s & v_ref & Ec & _ & Hpr & Hps & Hpv).
  rewrite Hm, nth_curve_mu
    by (rewrite Ht, length_curve_temps; unfold curve_count; lia).
  rewrite Hr, Ec, np_sutherland_viscosity_none_iff.
  set (t := nth i (calc_temps c) 0).
  assert (Hi' : 0 < / t_ref) by now apply Rinv_0_lt_compat.
  split.
  - intros [Z | [Q | Z]]; [lra | | lra].
    unfold Rdiv in Q. nra.
  - intros L. right; left. unfold Rdiv. nra.
Qed.

Lemma calculate_below_zero_completes :
  exists c : calculation,
    calculate "SI" "K" (-50) = Ok c /\ calc_T c = -50.
Proof.
  destruct (calculate_ok "SI" "K" (-50) (-50) PyComplex)
    as (c & Hc & HT & _).
  - reflexivity.
  - simpl. apply sutherland_viscosity_complex;
      unfold T_REF_SI, S_SI; lra.
  - exists c. split; assumption.
Qed.

Lemma calculate_curve_nonfinite_iff_witness :
  exists c : calculation,
    calculate "SI" "K" (-50) = Ok c /\
    nth 99 (calc_mu c) None = None.
Proof.
  destruct calculate_below_zero_completes as (c & Hc & HT).
  exists c. split; [exact Hc |].
  apply (calculate_curve_nonfinite_iff "SI" "K" (-50) c 99 Hc).
  - lia.
  - destruct (calculate_inv _ _ _ _ Hc) as (_ & _ & _ & _ & Ht & _).
    rewrite Ht, nth_curve_temps_last, HT. lra.
Defined.

(** ** The units the sidebar offers *)

(** X21: every option of the unit select box, and so the option selected
    at first under either unit system, is a unit both converters accept:
    a calculation started from the sidebar never raises ValueError. *)
Theorem sidebar_units_supported
        (unit_system : string) (i : nat) (value : R) :
  (i < length temp_unit_options)%nat ->
  let temp_unit := nth i temp_unit_options "" in
  (default_unit_index unit_system < length temp_unit_options)%nat /\
  (exists k r : R,
     to_kelvin value temp_unit = Ok k /\ to_rankine value temp_unit = Ok r) /\
  (forall msg : string,
     calculate unit_system temp_unit value <> Raise (ValueError msg)).
Proof.
  intros Hi temp_unit.
  assert (I : In temp_unit unit_symbols).
  { unfold temp_unit. apply (nth_In temp_unit_options "" Hi). }
  split; [| split].
  - unfold default_unit_index.
    destruct (String.eqb unit_system "SI"); simpl; lia.
  - destruct (converters_accept value temp_unit I) as [[k Hk] [r Hr]].
    exists k, r. split; assumption.
  - intros msg H.
    destruct (calculate_raise_cases _ _ _ _ H) as [[_ N] | E];
      [exact (N I) | discriminate E].
Qed.

Lemma sidebar_units_supported_witness :
  (default_unit_index "USC" < length temp_unit_options)%nat /\
  (exists k r : R, to_kelvin 0 "R" = Ok k /\ to_rankine 0 "R" = Ok r) /\
  calculate "USC" "R" 0 <> Raise (unsupported "R").
Proof.
  assert (Hi : (3 < length temp_unit_options)%nat) by (simpl; lia).
  destruct (sidebar_units_supported "USC" 3 0 Hi) as (Hd & Hc & H).
  split; [exact Hd | split; [exact Hc |]].
  apply H.
Defined.
